(** * GerritStatusPush: pushing build results to a Gerrit ssh server

    A shallow embedding of [master/buildbot/status/status_gerrit.py]:
    the default message callback, the [buildFinished] handler that turns
    the [downloads] property of a build into [gerrit review] commands,
    and the process protocol that reports how the ssh child ended.

    Python values are embedded as follows: [str] as [string], [int] as
    [Z], lists as [list]; exceptions and the observable effects
    ([print], [reactor.spawnProcess], the call of the message callback)
    are threaded through a small trace-and-exception monad. *)

From Stdlib Require Import String Ascii List ZArith Lia Bool DecimalString.
From Stdlib Require Import DecimalPos DecimalZ.
Import ListNotations.

Open Scope string_scope.
Open Scope Z_scope.

(** ** Exceptions *)

Inductive exn : Type :=
| KeyError
| ValueError
| TypeError
| IndexError.

(** A Python expression either has a value or raises. *)
Inductive outcome (A : Type) : Type :=
| Return (a : A)
| Raise (e : exn).
Arguments Return {A} a.
Arguments Raise {A} e.

Definition and_then {A B} (o : outcome A) (k : A -> outcome B) : outcome B :=
  match o with
  | Return a => k a
  | Raise e => Raise e
  end.

(** ** Python primitives used by the module *)

Module Py.

(** [str(n)] for an [int]. *)
Definition str (n : Z) : string := NilZero.string_of_int (Z.to_int n).

(** Truth value of a [str]: only the empty string is false. *)
Definition truthy_str (s : string) : bool :=
  match s with
  | EmptyString => false
  | String _ _ => true
  end.

(** Truth value of an [int]: only zero is false. *)
Definition truthy_int (n : Z) : bool := negb (n =? 0).

(** [s.split(sep)] for a one-character separator: every occurrence of
    [sep] cuts, so adjacent separators give empty fields, and the
    result always has at least one field. *)
Fixpoint split (sep : ascii) (s : string) : list string :=
  match s with
  | EmptyString => [EmptyString]
  | String c rest =>
      if Ascii.eqb c sep then EmptyString :: split sep rest
      else match split sep rest with
           | [] => [String c EmptyString]
           | field :: fields => String c field :: fields
           end
  end.

(** [l.append(x)]. *)
Definition append {A} (l : list A) (x : A) : list A := (l ++ [x])%list.

(** [m[key]] where [m] is a bound built-in method such as
    [command.extend]: a method object has no item access, so the
    subscription raises [TypeError] whatever the key is. *)
Definition subscript_method {A} (key : list string) : outcome A :=
  Raise TypeError.

(** [sep] does not occur in [s]. *)
Fixpoint free_of (sep : ascii) (s : string) : bool :=
  match s with
  | EmptyString => true
  | String c rest => negb (Ascii.eqb c sep) && free_of sep rest
  end.

End Py.

(** ** Effects *)

(** What the child process reported when it ended: the [value] of the
    failure object Twisted hands to [processEnded] ([ProcessDone] or
    [ProcessTerminated]).  A process that exited has an exit code and no
    signal; a process killed by a signal has a signal and [None] as
    exit code. *)
Record ProcessStatus : Type := mkStatus {
  exitCode : option Z;
  signal : option Z
}.

(** One item of a [print] statement. *)
Inductive printed : Type :=
| PStr (s : string)
| PList (l : list string)
| PStatus (st : ProcessStatus).

Inductive event : Type :=
| CallMessageCB (buildername : string) (results : Z)
| Print (items : list printed)
| SpawnProcess (executable : string) (args : list string).

(** A computation extends the trace of events seen so far and either
    returns or raises; the trace is kept when it raises. *)
Definition M (A : Type) : Type := list event -> outcome A * list event.

Definition ret {A} (a : A) : M A := fun t => (Return a, t).

Definition raise {A} (e : exn) : M A := fun t => (Raise e, t).

Definition bind {A B} (m : M A) (k : A -> M B) : M B :=
  fun t =>
    match m t with
    | (Return a, t') => k a t'
    | (Raise e, t') => (Raise e, t')
    end.

Definition emit (e : event) : M unit := fun t => (Return tt, (t ++ [e])%list).

Definition lift {A} (o : outcome A) : M A := fun t => (o, t).

Declare Scope py_scope.
Delimit Scope py_scope with py.
Notation "x <- m ;; k" := (bind m (fun x => k))
  (at level 61, m at next level, right associativity) : py_scope.
Notation "' pat <- m ;; k" := (bind m (fun x => match x with pat => k end))
  (at level 61, pat pattern, m at next level, right associativity) : py_scope.
Notation "m ;; k" := (bind m (fun _ => k))
  (at level 61, right associativity) : py_scope.
Open Scope py_scope.

(** [for x in xs: body x]. *)
Fixpoint for_each {A} (xs : list A) (body : A -> M unit) : M unit :=
  match xs with
  | [] => ret tt
  | x :: rest => body x ;; for_each rest body
  end.

(** The commands handed to [reactor.spawnProcess], in order. *)
Fixpoint spawned (t : list event) : list (list string) :=
  match t with
  | [] => []
  | SpawnProcess _ args :: rest => args :: spawned rest
  | _ :: rest => spawned rest
  end.

(** ** The build handle and the status receiver *)

(** Value of the [downloads] property. *)
Inductive property : Type :=
| PyNone
| PyList (tokens : list string).

(** The part of the build object this module reads.  [getProperty]
    raises [KeyError] for a name the build does not have. *)
Record Build : Type := mkBuild {
  getNumber : Z;
  getProperty : string -> outcome property
}.

(** The message callback, for the calls in which it returns: the triple
    (message, verified, reviewed).  A callback that raises is not
    modelled; the call is made outside the [try], so such an exception
    would leave [buildFinished] as it is. *)
Definition MessageCB : Type := string -> Build -> Z -> string * Z * Z.

(** The host name, [os.uname()[1]]. *)
Record Env : Type := mkEnv {
  uname_nodename : string
}.

Definition newline : string := String (ascii_of_nat 10) EmptyString.

Definition defaultMessageCB (env : Env) : MessageCB :=
  fun buildername build results =>
    let message := "buildbot finished compiling your patchset" ++ newline in
    let message := message ++ "on configuration " ++ buildername ++ " " in
    let message := message ++ "the result is " ++ Py.str results ++ newline in
    let message := message ++ "more details: http://" ++ uname_nodename env
                     ++ ":8010/builders/" ++ buildername
                     ++ "/builds/" ++ Py.str (getNumber build) ++ newline in
    (message, 0, 0).

Record GerritStatusPush : Type := mkGerritStatusPush {
  gerritserver : string;
  username : string;
  messageCB : MessageCB;
  gerritport : Z
}.

(** [__init__] with the default [port=29418]. *)
Definition init (server user : string) (cb : MessageCB) : GerritStatusPush :=
  mkGerritStatusPush server user cb 29418.

Module LocalPP.

Definition outReceived (data : string) : M unit :=
  emit (Print [PStr "gerritout:"; PStr data]).

Definition errReceived (data : string) : M unit :=
  emit (Print [PStr "gerriterr:"; PStr data]).

(** [if status_object.value.exitCode:] is false for [None] and for 0. *)
Definition exitCode_truthy (st : ProcessStatus) : bool :=
  match exitCode st with
  | None => false
  | Some c => Py.truthy_int c
  end.

Definition processEnded (status_object : ProcessStatus) : M unit :=
  if exitCode_truthy status_object
  then emit (Print [PStr "gerrit status: ERROR:"; PStatus status_object])
  else emit (Print [PStr "gerrit status: OK"]).

End LocalPP.

(** [project, patch = download.split(" ")[:2]]: unpacking needs exactly
    two values, and the slice holds at most two. *)
Definition unpack_pair (fields : list string) : outcome (string * string) :=
  match fields with
  | [project; patch] => Return (project, patch)
  | _ => Raise ValueError
  end.

Definition split_download (download : string) : outcome (string * string) :=
  unpack_pair (firstn 2 (Py.split " " download)).

(** [patch.split("/")[0]]. *)
Definition changeid_of (patch : string) : outcome string :=
  match Py.split "/" patch with
  | first :: _ => Return first
  | [] => Raise IndexError
  end.

(** The two parsing statements at the head of the loop body. *)
Definition parse_download (download : string) : outcome (string * string) :=
  match split_download download with
  | Return (project, patch) =>
      match changeid_of patch with
      | Return changeid => Return (project, changeid)
      | Raise e => Raise e
      end
  | Raise e => Raise e
  end.

(** The list the loop body starts the command with. *)
Definition command_prefix (self : GerritStatusPush) (project : string)
  : list string :=
  ["ssh"; username self ++ "@" ++ gerritserver self; "-p";
   Py.str (gerritport self); "gerrit"; "review"; "--project"; project].

(** The rest of the loop body up to the complete [command].  The two
    score branches read [command.extend[...]]: they subscript the method
    instead of calling it. *)
Definition build_command (self : GerritStatusPush)
    (message : string) (verified reviewed : Z)
    (project changeid : string) : outcome (list string) :=
  let command := command_prefix self project in
  let command :=
    if Py.truthy_str message
    then Py.append command ("--message '" ++ message ++ "'")
    else command in
  and_then (if Py.truthy_int verified
            then Py.subscript_method ["--verified"; Py.str verified]
            else Return tt) (fun _ =>
  and_then (if Py.truthy_int reviewed
            then Py.subscript_method ["--code-review"; Py.str reviewed]
            else Return tt) (fun _ =>
  Return (Py.append command changeid))).

(** [print command] and [reactor.spawnProcess(self.LocalPP(self), "ssh",
    command)]. *)
Definition spawn_review (command : list string) : M unit :=
  emit (Print [PList command]) ;;
  emit (SpawnProcess "ssh" command).

(** The loop body once [project] and [changeid] are known. *)
Definition issue_review (self : GerritStatusPush)
    (message : string) (verified reviewed : Z)
    (project changeid : string) : M unit :=
  command <- lift (build_command self message verified reviewed
                     project changeid) ;;
  spawn_review command.

Definition loop_body (self : GerritStatusPush)
    (message : string) (verified reviewed : Z) (download : string) : M unit :=
  '(project, changeid) <- lift (parse_download download) ;;
  issue_review self message verified reviewed project changeid.

Definition buildFinished (self : GerritStatusPush)
    (builderName : string) (build : Build) (results : Z) : M unit :=
  match getProperty build "downloads" with
  | Raise KeyError => ret tt
  | Raise e => raise e
  | Return PyNone => ret tt
  | Return (PyList downloads) =>
      emit (CallMessageCB builderName results) ;;
      let '(message, verified, reviewed) :=
        messageCB self builderName build results in
      for_each downloads (loop_body self message verified reviewed)
  end.

(** The list [command] holds at [print command] when both scores are
    0: the prefix, the message argument unless the message is empty, and
    the change id. *)
Definition review_command (self : GerritStatusPush)
    (message project changeid : string) : list string :=
  Py.append
    (if Py.truthy_str message
     then Py.append (command_prefix self project)
            ("--message '" ++ message ++ "'")
     else command_prefix self project)
    changeid.

(** ** The receiving side of the command line *)

Module RemoteShell.

(** [ssh] is started with [argv = command]; after the destination and
    the [-p port] option, the remaining arguments are the remote
    command. *)
Definition remote_args (command : list string) : list string :=
  skipn 4 command.

(** The client joins the remote arguments with single blanks. *)
Definition command_line (args : list string) : string :=
  String.concat " " args.

Definition close_word (current : option string) : list string :=
  match current with
  | Some w => [w]
  | None => []
  end.

Definition push_char (current : option string) (c : ascii) : option string :=
  match current with
  | Some w => Some (w ++ String c EmptyString)
  | None => Some (String c EmptyString)
  end.

Definition open_word (current : option string) : option string :=
  match current with
  | Some w => Some w
  | None => Some EmptyString
  end.

(** The line is cut into words again on arrival: a blank ends a word,
    a single quote protects every character up to the next single
    quote. *)
Fixpoint words_from (line : string) (current : option string)
    (quoted : bool) : list string :=
  match line with
  | EmptyString => close_word current
  | String c rest =>
      if quoted then
        if Ascii.eqb c "'" then words_from rest current false
        else words_from rest (push_char current c) true
      else if Ascii.eqb c "'" then words_from rest (open_word current) true
      else if Ascii.eqb c " "
           then (close_word current ++ words_from rest None false)%list
           else words_from rest (push_char current c) false
  end.

Definition words (line : string) : list string :=
  words_from line None false.

(** The words the review server sees for a spawned command. *)
Definition received (command : list string) : list string :=
  words (command_line (remote_args command)).

End RemoteShell.

(** ** Concrete builds and receivers used in the examples *)

Module Scenario.

Definition build_with (number : Z) (downloads : outcome property) : Build :=
  mkBuild number
    (fun name => if String.eqb name "downloads" then downloads
                 else Raise KeyError).

Definition policy (message : string) (verified reviewed : Z) : MessageCB :=
  fun _ _ _ => (message, verified, reviewed).

Definition receiver (cb : MessageCB) : GerritStatusPush :=
  init "host" "user" cb.

Definition review (project : string) (middle : list string)
    (changeid : string) : list string :=
  (["ssh"; "user@host"; "-p"; "29418"; "gerrit"; "review";
    "--project"; project] ++ middle ++ [changeid])%list.

Definition tab : string := String (ascii_of_nat 9) EmptyString.

(** Scenario A: one well-formed token. *)
Definition build_A : Build :=
  build_with 1 (Return (PyList ["projA 12345/3"])).

(** Scenario B: a second token whose patch is not a number. *)
Definition build_B : Build :=
  build_with 1 (Return (PyList ["projA 12345/3"; "projB bad"])).

(** A token without a second field, followed by a well-formed one. *)
Definition build_one_field_first : Build :=
  build_with 1 (Return (PyList ["projB"; "projA 12345/3"])).

(** A message that holds single quotes. *)
Definition quoting_message : string := "x' --code-review '+2".

End Scenario.

(** ** Fields of a token, read by scanning *)

Module Scan.

(** The text of [s] before the first [sep]; all of [s] when [sep] does
    not occur. *)
Fixpoint before (sep : ascii) (s : string) : string :=
  match s with
  | EmptyString => EmptyString
  | String c rest =>
      if Ascii.eqb c sep then EmptyString else String c (before sep rest)
  end.

(** The text of [s] after the first [sep]; empty when [sep] does not
    occur. *)
Fixpoint after (sep : ascii) (s : string) : string :=
  match s with
  | EmptyString => EmptyString
  | String c rest => if Ascii.eqb c sep then rest else after sep rest
  end.

Definition has_space (download : string) : bool :=
  negb (Py.free_of " " download).

(** What precedes the first space. *)
Definition project_field (download : string) : string :=
  before " " download.

(** What lies between the first space and the next one (or the end). *)
Definition patch_field (download : string) : string :=
  before " " (after " " download).

(** The patch field up to its first slash. *)
Definition changeid_field (download : string) : string :=
  before "/" (patch_field download).

(** The tokens up to the first one without a space. *)
Fixpoint processed (downloads : list string) : list string :=
  match downloads with
  | [] => []
  | download :: rest =>
      if has_space download then download :: processed rest else []
  end.

End Scan.

(** The two events of one pushed review: [print command], then
    [reactor.spawnProcess(..., "ssh", command)]. *)
Definition review_events (command : list string) : list event :=
  [Print [PList command]; SpawnProcess "ssh" command].

(** The command for a token when both scores are 0. *)
Definition review_for (self : GerritStatusPush) (message download : string)
  : list string :=
  review_command self message
    (Scan.project_field download) (Scan.changeid_field download).

(** How often the message callback was called. *)
Fixpoint callback_calls (t : list event) : nat :=
  match t with
  | [] => 0%nat
  | CallMessageCB _ _ :: rest => S (callback_calls rest)
  | _ :: rest => callback_calls rest
  end.

(** The arguments every review command starts with, up to the project
    flag. *)
Definition fixed_arguments (self : GerritStatusPush) : list string :=
  ["ssh"; username self ++ "@" ++ gerritserver self; "-p";
   Py.str (gerritport self); "gerrit"; "review"; "--project"].

(** How the loop ends when a score is not 0: the first token already
    raises, [ValueError] if it has no space and [TypeError] from the
    subscripted [extend] otherwise. *)
Definition first_token_outcome (downloads : list string) : outcome unit :=
  match downloads with
  | [] => Return tt
  | download :: _ =>
      Raise (if Py.free_of " " download then ValueError else TypeError)
  end.

(** * Properties *)

(** ** Facts about [split] *)

Section Split.

Variable sep : ascii.

Lemma append_empty_r (s : string) : s ++ "" = s.
Proof. induction s as [|c s IH]; simpl; [reflexivity | now rewrite IH]. Qed.

Lemma split_not_nil (s : string) : Py.split sep s <> [].
Proof.
  induction s as [|c s IH]; simpl; [discriminate|].
  destruct (Ascii.eqb c sep); [discriminate|].
  destruct (Py.split sep s); discriminate.
Qed.

Lemma split_hd (s : string) :
  exists fields, Py.split sep s = hd "" (Py.split sep s) :: fields.
Proof.
  destruct (Py.split sep s) as [|f fs] eqn:E.
  - now apply split_not_nil in E.
  - now exists fs.
Qed.

(** A prefix without separator stays glued to the first field. *)
Lemma split_app_free (a b : string) :
  Py.free_of sep a = true ->
  Py.split sep (a ++ b) =
    (a ++ hd "" (Py.split sep b)) :: tl (Py.split sep b).
Proof.
  induction a as [|c a IH]; simpl; intros Hfree.
  - destruct (split_hd b) as [fs ->]. reflexivity.
  - apply andb_true_iff in Hfree as [Hc Ha].
    apply negb_true_iff in Hc. rewrite Hc, (IH Ha). reflexivity.
Qed.

Lemma split_free_sep (a b : string) :
  Py.free_of sep a = true ->
  Py.split sep (a ++ String sep b) = a :: Py.split sep b.
Proof.
  intros Hfree. rewrite (split_app_free _ _ Hfree). simpl.
  rewrite Ascii.eqb_refl. simpl. now rewrite append_empty_r.
Qed.

Lemma split_free (a : string) :
  Py.free_of sep a = true -> Py.split sep a = [a].
Proof.
  intros Hfree. rewrite <- (append_empty_r a) at 1.
  rewrite (split_app_free _ _ Hfree). simpl. now rewrite append_empty_r.
Qed.

Lemma hd_split_app_free (a b : string) :
  Py.free_of sep a = true ->
  hd "" (Py.split sep (a ++ b)) = a ++ hd "" (Py.split sep b).
Proof. intros Hfree. now rewrite (split_app_free _ _ Hfree). Qed.

End Split.

(** ** Parsing one token of [downloads] *)

Lemma changeid_of_hd (patch : string) :
  changeid_of patch = Return (hd "" (Py.split "/" patch)).
Proof.
  unfold changeid_of. destruct (split_hd "/" patch) as [fs ->]. reflexivity.
Qed.

(** A token without any space has one field and cannot be unpacked. *)
Lemma split_download_one_field (download : string) :
  Py.free_of " " download = true -> split_download download = Raise ValueError.
Proof.
  intros Hfree. unfold split_download. now rewrite (split_free _ _ Hfree).
Qed.

(** The project is what precedes the first space, the patch what lies
    between the first space and the second (or the end). *)
Lemma split_download_space (project rest : string) :
  Py.free_of " " project = true ->
  split_download (project ++ " " ++ rest) =
    Return (project, hd "" (Py.split " " rest)).
Proof.
  intros Hfree. unfold split_download. simpl append at 2.
  rewrite (split_free_sep _ _ _ Hfree).
  destruct (split_hd " " rest) as [fs ->]. reflexivity.
Qed.

Lemma parse_download_space (project rest : string) :
  Py.free_of " " project = true ->
  parse_download (project ++ " " ++ rest) =
    Return (project, hd "" (Py.split "/" (hd "" (Py.split " " rest)))).
Proof.
  intros Hfree. unfold parse_download.
  rewrite (split_download_space _ _ Hfree), changeid_of_hd. reflexivity.
Qed.

Lemma parse_download_one_field (download : string) :
  Py.free_of " " download = true -> parse_download download = Raise ValueError.
Proof.
  intros Hfree. unfold parse_download.
  now rewrite (split_download_one_field _ Hfree).
Qed.

(** C8, as stated, fails: fields separated by a tab are not separated
    at all for [split(" ")], and a second space makes the patch field
    empty; neither token yields project "proj" with change id "12345". *)
Lemma C8_whitespace_counterexample :
  parse_download ("proj" ++ Scenario.tab ++ "12345/3") = Raise ValueError /\
  parse_download "proj  12345/3" = Return ("proj", "") /\
  parse_download ("proj" ++ Scenario.tab ++ "12345/3")
    <> Return ("proj", "12345") /\
  parse_download "proj  12345/3" <> Return ("proj", "12345").
Proof. repeat split; try reflexivity; discriminate. Qed.

(** C8 (amended): a token made of a project without space, exactly one
    space character and a change id without space or slash, either
    ending there or followed by a slash or a space and any further
    text, parses to that project and that change id. *)
Theorem C8_parse_single_space (project change rev : string) :
  Py.free_of " " project = true ->
  Py.free_of " " change = true ->
  Py.free_of "/" change = true ->
  parse_download (project ++ " " ++ change ++ "/" ++ rev)
    = Return (project, change) /\
  parse_download (project ++ " " ++ change) = Return (project, change) /\
  parse_download (project ++ " " ++ change ++ " " ++ rev)
    = Return (project, change).
Proof.
  intros Hproject Hspace Hslash. split; [|split].
  - rewrite (parse_download_space _ _ Hproject).
    rewrite (hd_split_app_free _ _ _ Hspace).
    change ("/" ++ rev) with (String "/" rev).
    replace (hd "" (Py.split " " (String "/" rev)))
      with (String "/" (hd "" (Py.split " " rev)))
      by (simpl; destruct (split_hd " " rev) as [fs ->]; reflexivity).
    now rewrite (split_free_sep _ _ _ Hslash).
  - rewrite (parse_download_space _ _ Hproject).
    rewrite (split_free _ _ Hspace). simpl hd.
    now rewrite (split_free _ _ Hslash).
  - rewrite (parse_download_space _ _ Hproject).
    change (" " ++ rev) with (String " " rev).
    rewrite (split_free_sep _ _ _ Hspace). simpl hd.
    now rewrite (split_free _ _ Hslash).
Qed.

Lemma C8_parse_single_space_witness :
  parse_download "projA 12345/3" = Return ("projA", "12345") /\
  parse_download "projA 12345" = Return ("projA", "12345") /\
  parse_download "projA 12345 3" = Return ("projA", "12345").
Proof.
  apply (C8_parse_single_space "projA" "12345" "3"); reflexivity.
Defined.

(** ** Running the handler *)

Lemma for_each_single {A} (x : A) (body : A -> M unit) (t : list event) :
  for_each [x] body t = body x t.
Proof.
  simpl. unfold bind, ret. destruct (body x t) as [[[]|e] t']; reflexivity.
Qed.

Lemma for_each_app {A} (xs ys : list A) (body : A -> M unit) (t : list event) :
  for_each (xs ++ ys) body t =
    match for_each xs body t with
    | (Return _, t') => for_each ys body t'
    | (Raise e, t') => (Raise e, t')
    end.
Proof.
  revert t. induction xs as [|x xs IH]; intros t; simpl; [reflexivity|].
  unfold bind. destruct (body x t) as [[[]|e] t']; [apply IH | reflexivity].
Qed.

(** With a list of downloads, the handler calls the message callback
    once and then runs the loop. *)
Lemma buildFinished_downloads self builderName build results downloads
    message verified reviewed t :
  getProperty build "downloads" = Return (PyList downloads) ->
  messageCB self builderName build results = (message, verified, reviewed) ->
  buildFinished self builderName build results t =
    for_each downloads (loop_body self message verified reviewed)
      (t ++ [CallMessageCB builderName results])%list.
Proof.
  intros Hprop Hcb. unfold buildFinished. rewrite Hprop.
  unfold bind, emit. now rewrite Hcb.
Qed.

Lemma build_command_zero self message project changeid :
  build_command self message 0 0 project changeid =
    Return (review_command self message project changeid).
Proof. reflexivity. Qed.

(** A non-zero score reaches one of the subscripted [extend]s. *)
Lemma build_command_TypeError self message verified reviewed project changeid :
  verified <> 0 \/ reviewed <> 0 ->
  build_command self message verified reviewed project changeid
    = Raise TypeError.
Proof.
  intros Hscore. unfold build_command, Py.truthy_int.
  destruct (Z.eqb_spec verified 0) as [Hv|Hv]; simpl; [|reflexivity].
  destruct (Z.eqb_spec reviewed 0) as [Hr|Hr]; simpl; [|reflexivity].
  destruct Hscore; contradiction.
Qed.

Lemma issue_review_zero self message project changeid t :
  issue_review self message 0 0 project changeid t =
    (Return tt,
     (t ++ [Print [PList (review_command self message project changeid)];
            SpawnProcess "ssh"
              (review_command self message project changeid)])%list).
Proof.
  unfold issue_review, spawn_review, bind, lift, emit.
  rewrite build_command_zero. now rewrite <- app_assoc.
Qed.

Lemma loop_body_parsed self message verified reviewed download
    project changeid t :
  parse_download download = Return (project, changeid) ->
  loop_body self message verified reviewed download t =
    issue_review self message verified reviewed project changeid t.
Proof. intros Hparse. unfold loop_body, bind at 1, lift at 1. now rewrite Hparse. Qed.

Lemma loop_body_parse_error self message verified reviewed download e t :
  parse_download download = Raise e ->
  loop_body self message verified reviewed download t = (Raise e, t).
Proof. intros Hparse. unfold loop_body, bind, lift. now rewrite Hparse. Qed.

Lemma spawned_app (t1 t2 : list event) :
  spawned (t1 ++ t2) = (spawned t1 ++ spawned t2)%list.
Proof.
  induction t1 as [|[bn r|items|exe args] t1 IH]; simpl;
    [reflexivity | assumption | assumption | now rewrite IH].
Qed.

(** ** No downloads: nothing happens *)

(** C7: when the build has no [downloads] property ([getProperty] raises
    [KeyError]) or the property is [None], [buildFinished] returns
    normally and leaves the trace as it was: the message callback is not
    called, nothing is printed and no process is spawned. *)
Theorem C7_no_downloads_no_command self builderName build results t :
  getProperty build "downloads" = Raise KeyError \/
  getProperty build "downloads" = Return PyNone ->
  buildFinished self builderName build results t = (Return tt, t) /\
  spawned (snd (buildFinished self builderName build results t)) = spawned t.
Proof.
  intros [Hprop|Hprop]; unfold buildFinished; rewrite Hprop; split; reflexivity.
Qed.

Lemma C7_no_downloads_no_command_witness :
  (buildFinished (Scenario.receiver (Scenario.policy "OK" 1 0)) "builder"
     (Scenario.build_with 1 (Raise KeyError)) 0 [] = (Return tt, []) /\
   spawned (snd (buildFinished (Scenario.receiver (Scenario.policy "OK" 1 0))
                   "builder" (Scenario.build_with 1 (Raise KeyError)) 0 []))
     = spawned []) /\
  (buildFinished (Scenario.receiver (Scenario.policy "OK" 1 0)) "builder"
     (Scenario.build_with 1 (Return PyNone)) 0 [] = (Return tt, []) /\
   spawned (snd (buildFinished (Scenario.receiver (Scenario.policy "OK" 1 0))
                   "builder" (Scenario.build_with 1 (Return PyNone)) 0 []))
     = spawned []).
Proof.
  split.
  - apply (C7_no_downloads_no_command
             (Scenario.receiver (Scenario.policy "OK" 1 0)) "builder"
             (Scenario.build_with 1 (Raise KeyError)) 0 []).
    left. reflexivity.
  - apply (C7_no_downloads_no_command
             (Scenario.receiver (Scenario.policy "OK" 1 0)) "builder"
             (Scenario.build_with 1 (Return PyNone)) 0 []).
    right. reflexivity.
Defined.

(** ** The default message callback *)

(** C9: the default callback reads nothing but the host name, the
    builder name, the build number and the result code: two calls that
    agree on these return the same triple, whatever else the two build
    handles hold, and both scores of the triple are 0. *)
Theorem C9_default_policy_deterministic env buildername build1 build2 results :
  getNumber build1 = getNumber build2 ->
  defaultMessageCB env buildername build1 results
    = defaultMessageCB env buildername build2 results /\
  snd (fst (defaultMessageCB env buildername build1 results)) = 0 /\
  snd (defaultMessageCB env buildername build1 results) = 0.
Proof.
  intros Hnumber. unfold defaultMessageCB. rewrite Hnumber. repeat split.
Qed.

Lemma C9_default_policy_deterministic_witness :
  defaultMessageCB (mkEnv "bb") "builder"
      (Scenario.build_with 7 (Return PyNone)) 2
    = defaultMessageCB (mkEnv "bb") "builder"
        (Scenario.build_with 7 (Return (PyList ["projA 12345/3"]))) 2 /\
  snd (fst (defaultMessageCB (mkEnv "bb") "builder"
              (Scenario.build_with 7 (Return PyNone)) 2)) = 0 /\
  snd (defaultMessageCB (mkEnv "bb") "builder"
         (Scenario.build_with 7 (Return PyNone)) 2) = 0.
Proof.
  apply (C9_default_policy_deterministic (mkEnv "bb") "builder"
           (Scenario.build_with 7 (Return PyNone))
           (Scenario.build_with 7 (Return (PyList ["projA 12345/3"]))) 2).
  reflexivity.
Defined.

(** ** Non-zero scores *)

(** C3 (what the code does at verified = 1, verified = -1 and
    reviewed = 1): no command is built, because the branch that should
    add the score flag subscripts [command.extend] and raises
    [TypeError]; the sign of the score makes no difference. *)
Theorem C3_score_flag_raises_TypeError :
  build_command (Scenario.receiver (Scenario.policy "" 1 0))
    "" 1 0 "projA" "12345" = Raise TypeError /\
  build_command (Scenario.receiver (Scenario.policy "" (-1) 0))
    "" (-1) 0 "projA" "12345" = Raise TypeError /\
  build_command (Scenario.receiver (Scenario.policy "" 0 1))
    "" 0 1 "projA" "12345" = Raise TypeError /\
  build_command (Scenario.receiver (Scenario.policy "OK" 1 1))
    "OK" 1 1 "projA" "12345" = Raise TypeError.
Proof. repeat split. Qed.

(** With both scores 0 the message argument is present exactly when the
    message is not empty. *)
Lemma review_command_message self message project changeid :
  review_command self message project changeid =
    match message with
    | EmptyString => Py.append (command_prefix self project) changeid
    | String _ _ =>
        Py.append
          (Py.append (command_prefix self project)
             ("--message '" ++ message ++ "'"))
          changeid
    end.
Proof. destruct message; reflexivity. Qed.

Lemma issue_review_TypeError self message verified reviewed project changeid t :
  verified <> 0 \/ reviewed <> 0 ->
  issue_review self message verified reviewed project changeid t
    = (Raise TypeError, t).
Proof.
  intros Hscore. unfold issue_review, bind, lift.
  now rewrite (build_command_TypeError _ _ _ _ _ _ Hscore).
Qed.

(** C1 (what the code does in scenario A): the callback is called, then
    the first token reaches the verified branch, which raises
    [TypeError]; the exception leaves [buildFinished] and no command has
    been spawned. *)
Theorem C1_scenario_A_raises_TypeError :
  buildFinished (Scenario.receiver (Scenario.policy "OK" 1 0)) "builder"
    Scenario.build_A 0 []
    = (Raise TypeError, [CallMessageCB "builder" 0]) /\
  spawned (snd (buildFinished (Scenario.receiver (Scenario.policy "OK" 1 0))
                  "builder" Scenario.build_A 0 [])) = [].
Proof. split; reflexivity. Qed.

(** ** Exceptions inside the loop *)

(** C2, as stated, fails: with a first token that has no second field,
    [ValueError] leaves [buildFinished] and the well-formed token after
    it is never processed. *)
Lemma C2_exception_escapes_counterexample :
  buildFinished (Scenario.receiver (Scenario.policy "OK" 0 0)) "builder"
    Scenario.build_one_field_first 0 []
    = (Raise ValueError, [CallMessageCB "builder" 0]) /\
  spawned (snd (buildFinished (Scenario.receiver (Scenario.policy "OK" 0 0))
                  "builder" Scenario.build_one_field_first 0 [])) = [] /\
  ~ (exists t,
       buildFinished (Scenario.receiver (Scenario.policy "OK" 0 0)) "builder"
         Scenario.build_one_field_first 0 [] = (Return tt, t)).
Proof.
  repeat split. intros [t Ht]. discriminate Ht.
Qed.

(** C2 (amended): the loop has no handler.  When the tokens before some
    token are processed and the body raises for that token, the
    exception leaves [buildFinished]; the trace is the one reached
    before that token, so nothing is spawned for it or for any token
    after it. *)
Theorem C2_exception_propagates
    self builderName build results message verified reviewed
    before bad after e t t1 t2 :
  getProperty build "downloads"
    = Return (PyList (before ++ bad :: after)) ->
  messageCB self builderName build results = (message, verified, reviewed) ->
  for_each before (loop_body self message verified reviewed)
    (t ++ [CallMessageCB builderName results])%list = (Return tt, t1) ->
  loop_body self message verified reviewed bad t1 = (Raise e, t2) ->
  buildFinished self builderName build results t = (Raise e, t1) /\ t2 = t1.
Proof.
  intros Hprop Hcb Hbefore Hbad.
  assert (Hsame : t2 = t1).
  { unfold loop_body, bind at 1, lift at 1 in Hbad.
    destruct (parse_download bad) as [[project changeid]|e']; [|congruence].
    unfold issue_review, bind at 1, lift in Hbad.
    destruct (build_command self message verified reviewed project changeid);
      [discriminate Hbad | congruence]. }
  split; [|exact Hsame]. subst t2.
  rewrite (buildFinished_downloads _ _ _ _ _ _ _ _ _ Hprop Hcb).
  rewrite for_each_app, Hbefore. simpl. unfold bind. now rewrite Hbad.
Qed.

Lemma C2_exception_propagates_witness :
  buildFinished (Scenario.receiver (Scenario.policy "" 0 0)) "builder"
    (Scenario.build_with 1
       (Return (PyList ["projA 12345/3"; "projB"; "projC 678/1"]))) 0 []
  = (Raise ValueError,
     [CallMessageCB "builder" 0;
      Print [PList (Scenario.review "projA" [] "12345")];
      SpawnProcess "ssh" (Scenario.review "projA" [] "12345")]).
Proof.
  apply (C2_exception_propagates
           (Scenario.receiver (Scenario.policy "" 0 0)) "builder"
           (Scenario.build_with 1
              (Return (PyList ["projA 12345/3"; "projB"; "projC 678/1"]))) 0
           "" 0 0 ["projA 12345/3"] "projB" ["projC 678/1"] ValueError []
           [CallMessageCB "builder" 0;
            Print [PList (Scenario.review "projA" [] "12345")];
            SpawnProcess "ssh" (Scenario.review "projA" [] "12345")]
           [CallMessageCB "builder" 0;
            Print [PList (Scenario.review "projA" [] "12345")];
            SpawnProcess "ssh" (Scenario.review "projA" [] "12345")]);
    reflexivity.
Defined.

(** ** Scenario B *)

(** C6, as stated, fails: "projB bad" has two fields, so it is parsed
    like any other token (change id "bad") and a second command is
    spawned for it. *)
Lemma C6_scenario_B_counterexample :
  spawned (snd (buildFinished (Scenario.receiver (Scenario.policy "OK" 0 0))
                  "builder" Scenario.build_B 0 []))
    = [Scenario.review "projA" ["--message 'OK'"] "12345";
       Scenario.review "projB" ["--message 'OK'"] "bad"] /\
  length
    (spawned (snd (buildFinished (Scenario.receiver (Scenario.policy "OK" 0 0))
                     "builder" Scenario.build_B 0 []))) <> 1%nat.
Proof. split; [reflexivity | discriminate]. Qed.

(** C6 (amended): with a callback whose scores are 0, the downloads
    "projA 12345/3" and "projB bad" give two commands, in this order:
    one for projA with change id 12345 and one for projB with change id
    "bad". *)
Theorem C6_scenario_B_two_commands
    self builderName build results message t :
  getProperty build "downloads"
    = Return (PyList ["projA 12345/3"; "projB bad"]) ->
  messageCB self builderName build results = (message, 0, 0) ->
  fst (buildFinished self builderName build results t) = Return tt /\
  spawned (snd (buildFinished self builderName build results t))
    = (spawned t ++ [review_command self message "projA" "12345";
                     review_command self message "projB" "bad"])%list.
Proof.
  intros Hprop Hcb.
  assert (Hrun : buildFinished self builderName build results t =
            (Return tt,
             (t ++ [CallMessageCB builderName results;
                    Print [PList (review_command self message "projA" "12345")];
                    SpawnProcess "ssh"
                      (review_command self message "projA" "12345");
                    Print [PList (review_command self message "projB" "bad")];
                    SpawnProcess "ssh"
                      (review_command self message "projB" "bad")])%list)).
  { rewrite (buildFinished_downloads _ _ _ _ _ _ _ _ _ Hprop Hcb).
    cbn [for_each]. unfold bind at 1.
    rewrite (loop_body_parsed _ _ _ _ "projA 12345/3" "projA" "12345" _ eq_refl).
    rewrite issue_review_zero. unfold bind at 1.
    rewrite (loop_body_parsed _ _ _ _ "projB bad" "projB" "bad" _ eq_refl).
    rewrite issue_review_zero. unfold ret. now rewrite <- !app_assoc. }
  rewrite Hrun. split; [reflexivity|].
  cbn [snd]. rewrite spawned_app. reflexivity.
Qed.

Lemma C6_scenario_B_two_commands_witness :
  fst (buildFinished (Scenario.receiver (Scenario.policy "" 0 0)) "builder"
         (Scenario.build_with 1
            (Return (PyList ["projA 12345/3"; "projB bad"]))) 0 [])
    = Return tt /\
  spawned (snd (buildFinished (Scenario.receiver (Scenario.policy "" 0 0))
                  "builder"
                  (Scenario.build_with 1
                     (Return (PyList ["projA 12345/3"; "projB bad"]))) 0 []))
    = [Scenario.review "projA" [] "12345"; Scenario.review "projB" [] "bad"].
Proof.
  apply (C6_scenario_B_two_commands
           (Scenario.receiver (Scenario.policy "" 0 0)) "builder"
           (Scenario.build_with 1
              (Return (PyList ["projA 12345/3"; "projB bad"]))) 0 "" []);
    reflexivity.
Defined.

(** Whatever the callback returns, scenario B never gives exactly one
    command: two when both scores are 0, none otherwise. *)
Lemma scenario_B_never_one_command message verified reviewed :
  length
    (spawned
       (snd (buildFinished
               (Scenario.receiver (Scenario.policy message verified reviewed))
               "builder" Scenario.build_B 0 [])))
    <> 1%nat.
Proof.
  destruct (Z.eq_dec verified 0) as [->|Hv].
  - destruct (Z.eq_dec reviewed 0) as [->|Hr].
    + destruct message; discriminate.
    + unfold buildFinished. cbn [getProperty Scenario.build_B Scenario.build_with String.eqb
        Ascii.eqb Bool.eqb messageCB Scenario.receiver init Scenario.policy].
      cbn [for_each]. unfold bind at 1 2, emit at 1.
      rewrite (loop_body_parsed _ _ _ _ "projA 12345/3" "projA" "12345" _ eq_refl).
      rewrite issue_review_TypeError by (right; exact Hr). discriminate.
  - unfold buildFinished. cbn [getProperty Scenario.build_B Scenario.build_with String.eqb
      Ascii.eqb Bool.eqb messageCB Scenario.receiver init Scenario.policy].
    cbn [for_each]. unfold bind at 1 2, emit at 1.
    rewrite (loop_body_parsed _ _ _ _ "projA 12345/3" "projA" "12345" _ eq_refl).
    rewrite issue_review_TypeError by (left; exact Hv). discriminate.
Qed.

(** ** How the child ended *)

Lemma processEnded_returns status_object t :
  exists line,
    LocalPP.processEnded status_object t = (Return tt, (t ++ [Print line])%list).
Proof.
  unfold LocalPP.processEnded.
  destruct (LocalPP.exitCode_truthy status_object); eexists; reflexivity.
Qed.

Lemma processEnded_exit_zero sig t :
  LocalPP.processEnded (mkStatus (Some 0) sig) t
    = (Return tt, (t ++ [Print [PStr "gerrit status: OK"]])%list).
Proof. reflexivity. Qed.

Lemma processEnded_exit_nonzero code sig t :
  code <> 0 ->
  LocalPP.processEnded (mkStatus (Some code) sig) t
    = (Return tt,
       (t ++ [Print [PStr "gerrit status: ERROR:";
                     PStatus (mkStatus (Some code) sig)]])%list).
Proof.
  intros Hcode. unfold LocalPP.processEnded, LocalPP.exitCode_truthy,
    Py.truthy_int. simpl.
  destruct (Z.eqb_spec code 0); [contradiction | reflexivity].
Qed.

(** C4 (what the code does for a child killed by signal 9): the status
    carries no exit code, the test on [exitCode] is false, and the line
    printed is the success line. *)
Theorem C4_signal_kill_printed_OK :
  LocalPP.processEnded (mkStatus None (Some 9)) []
    = (Return tt, [Print [PStr "gerrit status: OK"]]).
Proof. reflexivity. Qed.

(** ** Quotes in the message *)

(** The message is copied between the two quotes as it is. *)
Lemma message_argument_verbatim self c message project changeid :
  In ("--message '" ++ String c message ++ "'")
     (review_command self (String c message) project changeid).
Proof.
  unfold review_command, Py.append. cbn [Py.truthy_str].
  apply in_or_app. left. apply in_or_app. right. left. reflexivity.
Qed.

(** C5 (what the code does for a message that holds single quotes): the
    quote inside the message closes the quoting the code opened, and the
    receiving side reads the rest of the message as further words, here
    as a code-review score the callback never gave. *)
Theorem C5_quote_in_message_adds_words :
  buildFinished
    (Scenario.receiver (Scenario.policy Scenario.quoting_message 0 0))
    "builder" Scenario.build_A 0 []
    = (Return tt,
       [CallMessageCB "builder" 0;
        Print [PList (Scenario.review "projA"
                        ["--message 'x' --code-review '+2'"] "12345")];
        SpawnProcess "ssh"
          (Scenario.review "projA"
             ["--message 'x' --code-review '+2'"] "12345")]) /\
  RemoteShell.received
    (Scenario.review "projA" ["--message 'x' --code-review '+2'"] "12345")
    = ["gerrit"; "review"; "--project"; "projA"; "--message"; "x";
       "--code-review"; "+2"; "12345"].
Proof. split; reflexivity. Qed.


(** * Further properties of the module *)

(** ** [split] against a direct scan *)

Lemma split_before_after (sep : ascii) (s : string) :
  Py.free_of sep s = false ->
  Py.split sep s = Scan.before sep s :: Py.split sep (Scan.after sep s).
Proof.
  induction s as [|c s IH]; simpl; [discriminate|].
  destruct (Ascii.eqb c sep); simpl; [reflexivity|].
  intros Hocc. now rewrite (IH Hocc).
Qed.

Lemma hd_split_before (sep : ascii) (s : string) :
  hd "" (Py.split sep s) = Scan.before sep s.
Proof.
  induction s as [|c s IH]; simpl; [reflexivity|].
  destruct (Ascii.eqb c sep); [reflexivity|].
  destruct (Py.split sep s) as [|f fs] eqn:E.
  - now apply split_not_nil in E.
  - simpl in *. now rewrite IH.
Qed.

Lemma before_free (sep : ascii) (s : string) :
  Py.free_of sep (Scan.before sep s) = true.
Proof.
  induction s as [|c s IH]; simpl; [reflexivity|].
  destruct (Ascii.eqb c sep) eqn:E; simpl; [reflexivity|].
  now rewrite E, IH.
Qed.

Lemma before_keeps_free (a sep : ascii) (s : string) :
  Py.free_of a s = true -> Py.free_of a (Scan.before sep s) = true.
Proof.
  induction s as [|c s IH]; simpl; [reflexivity|].
  intros Hfree. apply andb_true_iff in Hfree as [Hc Hs].
  destruct (Ascii.eqb c sep); simpl; [reflexivity|].
  now rewrite Hc, (IH Hs).
Qed.

(** X1: parsing a token fails with [ValueError] exactly when the token
    holds no space; otherwise the project is the text before the first
    space and the change id is the text after that space, cut at the
    next space and then at the first slash.  Nothing else can happen:
    in particular indexing [patch.split("/")] never fails. *)
Theorem parse_download_by_scanning (download : string) :
  parse_download download =
    if Py.free_of " " download then Raise ValueError
    else Return (Scan.project_field download, Scan.changeid_field download).
Proof.
  destruct (Py.free_of " " download) eqn:Hfree.
  - now apply parse_download_one_field.
  - unfold parse_download, split_download.
    rewrite (split_before_after _ _ Hfree).
    destruct (split_hd " " (Scan.after " " download)) as [fs E].
    rewrite E. cbn [firstn unpack_pair].
    rewrite changeid_of_hd, !hd_split_before. reflexivity.
Qed.

(** X2: whenever parsing succeeds, the project holds no space and the
    change id holds neither a slash nor a space. *)
Theorem parse_download_fields_clean (download project changeid : string) :
  parse_download download = Return (project, changeid) ->
  Py.free_of " " project = true /\
  Py.free_of "/" changeid = true /\
  Py.free_of " " changeid = true.
Proof.
  rewrite parse_download_by_scanning.
  destruct (Py.free_of " " download); [discriminate|].
  intros [= <- <-]. unfold Scan.project_field, Scan.changeid_field,
    Scan.patch_field.
  repeat split.
  - apply before_free.
  - apply before_free.
  - apply before_keeps_free, before_free.
Qed.

Lemma parse_download_fields_clean_witness :
  Py.free_of " " "projA" = true /\
  Py.free_of "/" "12345" = true /\
  Py.free_of " " "12345" = true.
Proof.
  apply (parse_download_fields_clean "projA 12345/3 extra/4" "projA" "12345").
  reflexivity.
Defined.

Lemma concat_cons (sep x : string) (fields : list string) :
  fields <> [] ->
  String.concat sep (x :: fields) = x ++ sep ++ String.concat sep fields.
Proof. destruct fields; [contradiction | reflexivity]. Qed.

(** X3: joining the fields of [s.split(sep)] with [sep] gives [s] back,
    and no field holds the separator. *)
Theorem split_join_round_trip (sep : ascii) (s : string) :
  String.concat (String sep "") (Py.split sep s) = s /\
  Forall (fun field => Py.free_of sep field = true) (Py.split sep s).
Proof.
  induction s as [|c s [IHjoin IHfree]]; simpl.
  - split; [reflexivity | repeat constructor].
  - destruct (Ascii.eqb c sep) eqn:E.
    + apply Ascii.eqb_eq in E. subst c. split.
      * rewrite (concat_cons _ _ _ (split_not_nil sep s)), IHjoin.
        reflexivity.
      * constructor; [reflexivity | assumption].
    + destruct (Py.split sep s) as [|f fs] eqn:Es;
        [now apply split_not_nil in Es|].
      pose proof (Forall_inv IHfree) as Hf.
      pose proof (Forall_inv_tail IHfree) as Hfs. simpl in Hf. split.
      * destruct fs as [|g gs].
        -- simpl in *. now rewrite IHjoin.
        -- rewrite concat_cons by discriminate.
           rewrite concat_cons in IHjoin by discriminate.
           rewrite <- IHjoin. reflexivity.
      * constructor; [simpl; now rewrite E, Hf | assumption].
Qed.

(** X4: conversely, splitting the join of a non-empty list of fields
    that hold no separator gives the fields back. *)
Theorem join_split_round_trip (sep : ascii) (fields : list string) :
  fields <> [] ->
  Forall (fun field => Py.free_of sep field = true) fields ->
  Py.split sep (String.concat (String sep "") fields) = fields.
Proof.
  induction fields as [|x [|y rest] IH]; intros Hne Hfree.
  - contradiction.
  - inversion Hfree; subst. simpl. now apply split_free.
  - inversion Hfree as [|? ? Hx Hrest]; subst.
    change (String.concat (String sep "") (x :: y :: rest))
      with (x ++ String sep (String.concat (String sep "") (y :: rest))).
    rewrite (split_free_sep _ _ _ Hx). f_equal.
    apply IH; [discriminate | assumption].
Qed.

Lemma join_split_round_trip_witness :
  Py.split " " (String.concat " " ["projA"; ""; "12345/3"])
    = ["projA"; ""; "12345/3"].
Proof.
  apply (join_split_round_trip " " ["projA"; ""; "12345/3"]).
  - discriminate.
  - repeat constructor.
Defined.

(** ** The loop, token by token *)

Lemma build_command_cases self message verified reviewed project changeid :
  build_command self message verified reviewed project changeid =
    if (verified =? 0) && (reviewed =? 0)
    then Return (review_command self message project changeid)
    else Raise TypeError.
Proof.
  unfold build_command, Py.truthy_int.
  destruct (verified =? 0); simpl; [|reflexivity].
  destruct (reviewed =? 0); reflexivity.
Qed.

(** X5: the command-building part of the loop body gives a command
    exactly when both scores are 0: the seven fixed arguments, the
    project, the one argument [--message '<message>'] unless the message
    is empty, and the change id.  With any non-zero score it raises
    [TypeError], whatever the sign of the score and whatever the
    message, project and change id. *)
Theorem build_command_outcome
    self message verified reviewed project changeid :
  build_command self message verified reviewed project changeid =
    if (verified =? 0) && (reviewed =? 0)
    then Return
           (app (fixed_arguments self)
              (project
                 :: app (if Py.truthy_str message
                         then ["--message '" ++ message ++ "'"] else [])
                      [changeid]))
    else Raise TypeError.
Proof.
  rewrite build_command_cases.
  destruct ((verified =? 0) && (reviewed =? 0)); [|reflexivity].
  unfold review_command. destruct (Py.truthy_str message); reflexivity.
Qed.

Lemma loop_body_cases self message verified reviewed download t :
  loop_body self message verified reviewed download t =
    if Py.free_of " " download then (Raise ValueError, t)
    else if (verified =? 0) && (reviewed =? 0)
         then (Return tt,
               (t ++ review_events (review_for self message download))%list)
         else (Raise TypeError, t).
Proof.
  unfold loop_body, bind at 1, lift at 1.
  rewrite parse_download_by_scanning.
  destruct (Py.free_of " " download); [reflexivity|].
  unfold issue_review, bind at 1, lift. rewrite build_command_cases.
  destruct ((verified =? 0) && (reviewed =? 0)); [|reflexivity].
  unfold spawn_review, bind, emit, review_events, review_for.
  now rewrite <- app_assoc.
Qed.

Lemma for_each_loop_body self message verified reviewed downloads t :
  for_each downloads (loop_body self message verified reviewed) t =
    if (verified =? 0) && (reviewed =? 0)
    then (if forallb Scan.has_space downloads
          then Return tt else Raise ValueError,
          (t ++ flat_map (fun d => review_events (review_for self message d))
                  (Scan.processed downloads))%list)
    else (first_token_outcome downloads, t).
Proof.
  revert t. induction downloads as [|d rest IH]; intros t.
  - simpl. unfold ret. rewrite app_nil_r.
    destruct ((verified =? 0) && (reviewed =? 0)); reflexivity.
  - cbn [for_each]. unfold bind at 1. rewrite loop_body_cases.
    cbn [forallb Scan.processed first_token_outcome]. unfold Scan.has_space.
    destruct (Py.free_of " " d); cbn [negb andb].
    + rewrite app_nil_r.
      destruct ((verified =? 0) && (reviewed =? 0)); reflexivity.
    + destruct ((verified =? 0) && (reviewed =? 0)) eqn:Hzero;
        [|reflexivity].
      rewrite IH. cbn [flat_map]. now rewrite <- app_assoc.
Qed.

Lemma buildFinished_run self builderName build results downloads
    message verified reviewed t :
  getProperty build "downloads" = Return (PyList downloads) ->
  messageCB self builderName build results = (message, verified, reviewed) ->
  buildFinished self builderName build results t =
    if (verified =? 0) && (reviewed =? 0)
    then (if forallb Scan.has_space downloads
          then Return tt else Raise ValueError,
          (t ++ CallMessageCB builderName results
             :: flat_map (fun d => review_events (review_for self message d))
                  (Scan.processed downloads))%list)
    else (first_token_outcome downloads,
          (t ++ [CallMessageCB builderName results])%list).
Proof.
  intros Hprop Hcb.
  rewrite (buildFinished_downloads _ _ _ _ _ _ _ _ _ Hprop Hcb).
  rewrite for_each_loop_body.
  destruct ((verified =? 0) && (reviewed =? 0)); [|reflexivity].
  now rewrite <- app_assoc.
Qed.

Lemma spawned_review_events {A} (f : A -> list string) (xs : list A) :
  spawned (flat_map (fun x => review_events (f x)) xs) = map f xs.
Proof. induction xs as [|x xs IH]; simpl; [reflexivity | now rewrite IH]. Qed.

Lemma callback_calls_app (t1 t2 : list event) :
  callback_calls (t1 ++ t2) = (callback_calls t1 + callback_calls t2)%nat.
Proof.
  induction t1 as [|[bn r|items|exe args] t1 IH]; simpl;
    [reflexivity | now rewrite IH | assumption | assumption].
Qed.

Lemma callback_calls_review_events {A} (f : A -> list string) (xs : list A) :
  callback_calls (flat_map (fun x => review_events (f x)) xs) = 0%nat.
Proof. induction xs as [|x xs IH]; simpl; [reflexivity | assumption]. Qed.

Lemma processed_length (downloads : list string) :
  (length (Scan.processed downloads) <= length downloads)%nat.
Proof.
  induction downloads as [|d rest IH]; simpl; [lia|].
  destruct (Scan.has_space d); simpl; lia.
Qed.

Lemma processed_In (d : string) (downloads : list string) :
  In d (Scan.processed downloads) -> In d downloads /\ Scan.has_space d = true.
Proof.
  induction downloads as [|x rest IH]; simpl; [contradiction|].
  destruct (Scan.has_space x) eqn:Hx; simpl; [|contradiction].
  intros [<-|Hin]; [auto | destruct (IH Hin); auto].
Qed.

Lemma processed_all (downloads : list string) :
  forallb Scan.has_space downloads = true ->
  Scan.processed downloads = downloads.
Proof.
  induction downloads as [|d rest IH]; simpl; [reflexivity|].
  intros H. apply andb_true_iff in H as [Hd Hrest].
  now rewrite Hd, (IH Hrest).
Qed.

(** ** What [buildFinished] does for a list of downloads *)

(** X6: with scores 0, [buildFinished] calls the callback, then pushes
    one review per token, in order, up to the first token without a
    space; it returns normally when every token has a space and raises
    [ValueError] otherwise.  Each command is the one for the token's
    project and change id as read by scanning. *)
Theorem buildFinished_zero_scores
    self builderName build results downloads message t :
  getProperty build "downloads" = Return (PyList downloads) ->
  messageCB self builderName build results = (message, 0, 0) ->
  buildFinished self builderName build results t =
    (if forallb Scan.has_space downloads then Return tt else Raise ValueError,
     (t ++ CallMessageCB builderName results
        :: flat_map (fun d => review_events (review_for self message d))
             (Scan.processed downloads))%list) /\
  spawned (snd (buildFinished self builderName build results t)) =
    (spawned t ++ map (review_for self message)
                    (Scan.processed downloads))%list.
Proof.
  intros Hprop Hcb.
  rewrite (buildFinished_run _ _ _ _ _ _ _ _ _ Hprop Hcb).
  cbn [Z.eqb andb snd]. split; [reflexivity|].
  rewrite spawned_app. cbn [spawned]. now rewrite spawned_review_events.
Qed.

Lemma buildFinished_zero_scores_witness :
  buildFinished (Scenario.receiver (Scenario.policy "" 0 0)) "builder"
    (Scenario.build_with 1
       (Return (PyList ["projA 12345/3"; "projB"; "projC 678/1"]))) 0 []
  = (Raise ValueError,
     [CallMessageCB "builder" 0;
      Print [PList (Scenario.review "projA" [] "12345")];
      SpawnProcess "ssh" (Scenario.review "projA" [] "12345")]) /\
  spawned (snd (buildFinished (Scenario.receiver (Scenario.policy "" 0 0))
                  "builder"
                  (Scenario.build_with 1
                     (Return (PyList ["projA 12345/3"; "projB";
                                      "projC 678/1"]))) 0 []))
  = [Scenario.review "projA" [] "12345"].
Proof.
  apply (buildFinished_zero_scores
           (Scenario.receiver (Scenario.policy "" 0 0)) "builder"
           (Scenario.build_with 1
              (Return (PyList ["projA 12345/3"; "projB"; "projC 678/1"])))
           0 ["projA 12345/3"; "projB"; "projC 678/1"] "" []);
    reflexivity.
Defined.

(** X7: whatever the callback returns, a build never gets more review
    commands than it has tokens. *)
Theorem buildFinished_at_most_one_per_token
    self builderName build results downloads message verified reviewed t :
  getProperty build "downloads" = Return (PyList downloads) ->
  messageCB self builderName build results = (message, verified, reviewed) ->
  (length (spawned (snd (buildFinished self builderName build results t)))
   <= length (spawned t) + length downloads)%nat.
Proof.
  intros Hprop Hcb.
  rewrite (buildFinished_run _ _ _ _ _ _ _ _ _ Hprop Hcb).
  destruct ((verified =? 0) && (reviewed =? 0)); cbn [snd];
    rewrite spawned_app, length_app; cbn [spawned].
  - rewrite spawned_review_events, length_map.
    pose proof (processed_length downloads). lia.
  - simpl. lia.
Qed.

Lemma buildFinished_at_most_one_per_token_witness :
  (length (spawned (snd (buildFinished
                           (Scenario.receiver (Scenario.policy "OK" 0 0))
                           "builder" Scenario.build_B 0 [])))
   <= length (spawned []) + length ["projA 12345/3"; "projB bad"])%nat.
Proof.
  apply (buildFinished_at_most_one_per_token
           (Scenario.receiver (Scenario.policy "OK" 0 0)) "builder"
           Scenario.build_B 0 ["projA 12345/3"; "projB bad"] "OK" 0 0 []);
    reflexivity.
Defined.

(** X8: when the callback returns a non-zero verified or reviewed score,
    [buildFinished] spawns nothing, whatever the downloads: after the
    callback the first token already raises ([ValueError] if it has no
    space, [TypeError] otherwise), and only an empty list returns
    normally. *)
Theorem buildFinished_nonzero_score_spawns_nothing
    self builderName build results downloads message verified reviewed t :
  getProperty build "downloads" = Return (PyList downloads) ->
  messageCB self builderName build results = (message, verified, reviewed) ->
  verified <> 0 \/ reviewed <> 0 ->
  buildFinished self builderName build results t =
    (first_token_outcome downloads,
     (t ++ [CallMessageCB builderName results])%list) /\
  spawned (snd (buildFinished self builderName build results t)) = spawned t.
Proof.
  intros Hprop Hcb Hscore.
  rewrite (buildFinished_run _ _ _ _ _ _ _ _ _ Hprop Hcb).
  assert (Hzero : (verified =? 0) && (reviewed =? 0) = false).
  { apply andb_false_iff.
    destruct Hscore as [H|H]; [left | right]; now apply Z.eqb_neq. }
  rewrite Hzero. split; [reflexivity|].
  cbn [snd]. rewrite spawned_app. simpl. apply app_nil_r.
Qed.

Lemma buildFinished_nonzero_score_spawns_nothing_witness :
  buildFinished (Scenario.receiver (Scenario.policy "OK" 0 (-1))) "builder"
    Scenario.build_B 0 []
  = (Raise TypeError, [CallMessageCB "builder" 0]) /\
  spawned (snd (buildFinished (Scenario.receiver (Scenario.policy "OK" 0 (-1)))
                  "builder" Scenario.build_B 0 [])) = [].
Proof.
  apply (buildFinished_nonzero_score_spawns_nothing
           (Scenario.receiver (Scenario.policy "OK" 0 (-1))) "builder"
           Scenario.build_B 0 ["projA 12345/3"; "projB bad"] "OK" 0 (-1) []);
    [reflexivity | reflexivity | right; discriminate].
Defined.

(** X9: for a build whose downloads property is a list, the message
    callback is called exactly once, however many tokens the list has
    and however the loop ends. *)
Theorem buildFinished_calls_callback_once
    self builderName build results downloads t :
  getProperty build "downloads" = Return (PyList downloads) ->
  callback_calls (snd (buildFinished self builderName build results t))
    = S (callback_calls t).
Proof.
  intros Hprop.
  destruct (messageCB self builderName build results)
    as [[message verified] reviewed] eqn:Hcb.
  rewrite (buildFinished_run _ _ _ _ _ _ _ _ _ Hprop Hcb).
  destruct ((verified =? 0) && (reviewed =? 0)); cbn [snd];
    rewrite callback_calls_app; cbn [callback_calls].
  - rewrite callback_calls_review_events. lia.
  - lia.
Qed.

Lemma buildFinished_calls_callback_once_witness :
  callback_calls (snd (buildFinished
                         (Scenario.receiver (Scenario.policy "OK" 0 0))
                         "builder" Scenario.build_B 0 []))
    = S (callback_calls []).
Proof.
  apply (buildFinished_calls_callback_once
           (Scenario.receiver (Scenario.policy "OK" 0 0)) "builder"
           Scenario.build_B 0 ["projA 12345/3"; "projB bad"] []).
  reflexivity.
Defined.

Lemma flat_map_review_events_map {A} (f : A -> list string) (xs : list A) :
  flat_map (fun x => review_events (f x)) xs
    = flat_map review_events (map f xs).
Proof. induction xs as [|x xs IH]; simpl; [reflexivity | now rewrite IH]. Qed.

Lemma review_command_fixed self message project changeid :
  firstn 7 (review_command self message project changeid)
    = fixed_arguments self /\
  nth 7 (review_command self message project changeid) "" = project /\
  last (review_command self message project changeid) "" = changeid.
Proof.
  unfold review_command. repeat split.
  - destruct (Py.truthy_str message); reflexivity.
  - destruct (Py.truthy_str message); reflexivity.
  - unfold Py.append at 1. apply last_last.
Qed.

(** X10: everything [buildFinished] adds to the trace after the call of
    the callback is a sequence of pairs "print the command, spawn ssh
    with it"; every command starts with ssh, user@server, -p, the port,
    gerrit, review, --project, continues with the project of one of the
    tokens and ends with the change id of that token.  Nothing else is
    ever spawned. *)
Theorem buildFinished_commands_shape
    self builderName build results downloads t :
  getProperty build "downloads" = Return (PyList downloads) ->
  exists commands,
    snd (buildFinished self builderName build results t) =
      (t ++ CallMessageCB builderName results
         :: flat_map review_events commands)%list /\
    Forall (fun command =>
              firstn 7 command = fixed_arguments self /\
              exists download,
                In download downloads /\
                nth 7 command "" = Scan.project_field download /\
                last command "" = Scan.changeid_field download)
           commands.
Proof.
  intros Hprop.
  destruct (messageCB self builderName build results)
    as [[message verified] reviewed] eqn:Hcb.
  rewrite (buildFinished_run _ _ _ _ _ _ _ _ _ Hprop Hcb).
  destruct ((verified =? 0) && (reviewed =? 0)); cbn [snd].
  - exists (map (review_for self message) (Scan.processed downloads)).
    split; [now rewrite flat_map_review_events_map|].
    apply Forall_forall. intros command Hin.
    apply in_map_iff in Hin as (download & <- & Hin).
    apply processed_In in Hin as [Hin _].
    destruct (review_command_fixed self message
                (Scan.project_field download) (Scan.changeid_field download))
      as (Hfixed & Hproject & Hchange).
    split; [exact Hfixed|]. exists download. auto.
  - exists []. split; [reflexivity | constructor].
Qed.

Lemma buildFinished_commands_shape_witness :
  exists commands,
    snd (buildFinished (Scenario.receiver (Scenario.policy "OK" 0 0))
           "builder" Scenario.build_B 0 []) =
      ([] ++ CallMessageCB "builder" 0
          :: flat_map review_events commands)%list /\
    Forall (fun command =>
              firstn 7 command
                = fixed_arguments
                    (Scenario.receiver (Scenario.policy "OK" 0 0)) /\
              exists download,
                In download ["projA 12345/3"; "projB bad"] /\
                nth 7 command "" = Scan.project_field download /\
                last command "" = Scan.changeid_field download)
           commands.
Proof.
  apply (buildFinished_commands_shape
           (Scenario.receiver (Scenario.policy "OK" 0 0)) "builder"
           Scenario.build_B 0 ["projA 12345/3"; "projB bad"] []).
  reflexivity.
Defined.

(** X11: when the message callback returns its triple and
    [reactor.spawnProcess] starts the child (what either of them may
    raise itself is not covered here), the only exceptions that leave
    [buildFinished] are [ValueError] and [TypeError] from the loop's own
    statements, and whatever [getProperty] raised other than
    [KeyError]; a [KeyError] from [getProperty] never leaves it. *)
Theorem buildFinished_exceptions self builderName build results t e :
  fst (buildFinished self builderName build results t) = Raise e ->
  (e = ValueError \/ e = TypeError) \/
  (getProperty build "downloads" = Raise e /\ e <> KeyError).
Proof.
  destruct (getProperty build "downloads") as [[|downloads]|e0] eqn:Hprop.
  - unfold buildFinished. rewrite Hprop. discriminate.
  - destruct (messageCB self builderName build results)
      as [[message verified] reviewed] eqn:Hcb.
    rewrite (buildFinished_run _ _ _ _ _ _ _ _ _ Hprop Hcb).
    destruct ((verified =? 0) && (reviewed =? 0)); cbn [fst].
    + destruct (forallb Scan.has_space downloads); intros [= <-]; auto.
    + destruct downloads as [|d rest]; cbn [first_token_outcome];
        [discriminate|].
      destruct (Py.free_of " " d); intros [= <-]; auto.
  - unfold buildFinished. rewrite Hprop.
    destruct e0; cbn; intros [= <-]; right; split;
      reflexivity || discriminate.
Qed.

Lemma buildFinished_exceptions_witness :
  (ValueError = ValueError \/ ValueError = TypeError) \/
  (getProperty Scenario.build_one_field_first "downloads" = Raise ValueError /\
   ValueError <> KeyError).
Proof.
  apply (buildFinished_exceptions
           (Scenario.receiver (Scenario.policy "OK" 0 0)) "builder"
           Scenario.build_one_field_first 0 [] ValueError).
  reflexivity.
Defined.

(** ** How the child ended, in general *)

(** X12: [processEnded] never raises and never spawns; it prints one
    line, which is the error line with the status object exactly when
    the exit code is a non-zero integer, and the success line exactly
    when the exit code is 0 or [None]. *)
Theorem processEnded_one_line (status_object : ProcessStatus) (t : list event) :
  exists line,
    LocalPP.processEnded status_object t
      = (Return tt, (t ++ [Print line])%list) /\
    (line = [PStr "gerrit status: ERROR:"; PStatus status_object] <->
     exists code, exitCode status_object = Some code /\ code <> 0) /\
    (line = [PStr "gerrit status: OK"] <->
     exitCode status_object = None \/ exitCode status_object = Some 0).
Proof.
  unfold LocalPP.processEnded, LocalPP.exitCode_truthy, Py.truthy_int.
  destruct (exitCode status_object) as [code|] eqn:Hcode.
  - destruct (Z.eqb_spec code 0) as [->|Hne]; cbn [negb].
    + eexists. split; [reflexivity|]. split; split.
      * discriminate.
      * intros (c & [= <-] & Hc). contradiction.
      * auto.
      * reflexivity.
    + eexists. split; [reflexivity|]. split; split.
      * intros _. exists code. auto.
      * reflexivity.
      * discriminate.
      * intros [H|[= H]]; [discriminate | contradiction].
  - eexists. split; [reflexivity|]. split; split.
    + discriminate.
    + intros (c & H & _). discriminate.
    + auto.
    + reflexivity.
Qed.

(** ** The default callback *)

Lemma append_assoc (a b c : string) : (a ++ b) ++ c = a ++ b ++ c.
Proof. induction a as [|x a IH]; simpl; [reflexivity | now rewrite IH]. Qed.

Lemma append_cancel_l (a x y : string) : a ++ x = a ++ y -> x = y.
Proof.
  induction a as [|c a IH]; simpl; [auto|]. intros [= H]. now apply IH.
Qed.

Lemma before_app_sep (sep : ascii) (a b : string) :
  Py.free_of sep a = true -> Scan.before sep (a ++ String sep b) = a.
Proof.
  induction a as [|c a IH]; simpl; intros Hfree.
  - now rewrite Ascii.eqb_refl.
  - apply andb_true_iff in Hfree as [Hc Ha]. apply negb_true_iff in Hc.
    now rewrite Hc, (IH Ha).
Qed.

Lemma after_app_sep (sep : ascii) (a b : string) :
  Py.free_of sep a = true -> Scan.after sep (a ++ String sep b) = b.
Proof.
  induction a as [|c a IH]; simpl; intros Hfree.
  - now rewrite Ascii.eqb_refl.
  - apply andb_true_iff in Hfree as [Hc Ha]. apply negb_true_iff in Hc.
    now rewrite Hc, (IH Ha).
Qed.

Lemma string_of_uint_one_line (d : Decimal.uint) :
  Py.free_of (ascii_of_nat 10) (NilEmpty.string_of_uint d) = true.
Proof. induction d; simpl; auto. Qed.

(** The decimal text of an integer holds no line break. *)
Lemma str_one_line (n : Z) : Py.free_of (ascii_of_nat 10) (Py.str n) = true.
Proof.
  unfold Py.str.
  destruct (Z.to_int n) as [d|d]; simpl.
  - destruct d; try reflexivity; apply (string_of_uint_one_line (_ _)).
  - destruct d; try reflexivity; apply (string_of_uint_one_line (_ _)).
Qed.

Lemma to_int_proper (n : Z) :
  Z.to_int n <> Decimal.Pos Decimal.Nil /\
  Z.to_int n <> Decimal.Neg Decimal.Nil.
Proof.
  destruct n as [|p|p]; simpl; split; try discriminate;
    intros [= H]; now apply Unsigned.to_uint_nonnil in H.
Qed.

(** [str] gives different texts for different integers. *)
Lemma str_inj (n m : Z) : Py.str n = Py.str m -> n = m.
Proof.
  unfold Py.str. intros H.
  apply (f_equal NilZero.int_of_string) in H.
  destruct (to_int_proper n) as [Hn1 Hn2].
  destruct (to_int_proper m) as [Hm1 Hm2].
  rewrite !NilZero.isi in H by assumption.
  injection H as H. now apply DecimalZ.to_int_inj.
Qed.

Lemma str_line_inj (n m : Z) (x y : string) :
  Py.str n ++ newline ++ x = Py.str m ++ newline ++ y -> n = m /\ x = y.
Proof.
  unfold newline. cbn [append]. intros H. split.
  - apply str_inj.
    apply (f_equal (Scan.before (ascii_of_nat 10))) in H.
    now rewrite !before_app_sep in H by apply str_one_line.
  - apply (f_equal (Scan.after (ascii_of_nat 10))) in H.
    now rewrite !after_app_sep in H by apply str_one_line.
Qed.

(** The default message is a fixed text around the result code and the
    build number. *)
Lemma default_message_form env buildername :
  exists before_result before_number,
    forall build results,
      fst (fst (defaultMessageCB env buildername build results)) =
        before_result ++ Py.str results ++ newline ++
        before_number ++ Py.str (getNumber build) ++ newline ++ "".
Proof.
  exists (("buildbot finished compiling your patchset" ++ newline)
            ++ "on configuration " ++ buildername ++ " " ++ "the result is "),
         ("more details: http://" ++ uname_nodename env
            ++ ":8010/builders/" ++ buildername ++ "/builds/").
  intros build results. unfold defaultMessageCB. cbv zeta. cbn [fst].
  rewrite !append_assoc. reflexivity.
Qed.

(** X13: for a given host and builder, the default message tells the
    result code and the build number apart: two calls that return the
    same message were made with the same result code and with builds of
    the same number. *)
Theorem defaultMessageCB_identifies_build
    env buildername build1 build2 results1 results2 :
  defaultMessageCB env buildername build1 results1
    = defaultMessageCB env buildername build2 results2 ->
  results1 = results2 /\ getNumber build1 = getNumber build2.
Proof.
  intros H. apply (f_equal (fun triple => fst (fst triple))) in H.
  destruct (default_message_form env buildername) as (p & q & Hform).
  rewrite !Hform in H.
  apply append_cancel_l, str_line_inj in H as [Hresults H].
  split; [exact Hresults|].
  now apply append_cancel_l, str_line_inj in H as [Hnumber _].
Qed.

Lemma defaultMessageCB_identifies_build_witness :
  2 = 2 /\
  getNumber (Scenario.build_with 7 (Return PyNone))
    = getNumber (Scenario.build_with 7 (Raise KeyError)).
Proof.
  apply (defaultMessageCB_identifies_build (mkEnv "bb") "builder"
           (Scenario.build_with 7 (Return PyNone))
           (Scenario.build_with 7 (Raise KeyError)) 2 2).
  reflexivity.
Defined.

Lemma defaultMessageCB_triple env buildername build results :
  defaultMessageCB env buildername build results =
    (fst (fst (defaultMessageCB env buildername build results)), 0, 0) /\
  Py.truthy_str (fst (fst (defaultMessageCB env buildername build results)))
    = true.
Proof. split; reflexivity. Qed.

(** X14: a receiver that keeps the default callback never meets the
    score branches: [buildFinished] returns normally when every token
    has a space and raises [ValueError] otherwise, never [TypeError],
    and each command it spawns has exactly ten arguments, the ninth
    being the default message between single quotes. *)
Theorem default_callback_reviews
    env self builderName build results downloads t :
  messageCB self = defaultMessageCB env ->
  getProperty build "downloads" = Return (PyList downloads) ->
  fst (buildFinished self builderName build results t) =
    (if forallb Scan.has_space downloads
     then Return tt else Raise ValueError) /\
  spawned (snd (buildFinished self builderName build results t)) =
    app (spawned t)
      (map (fun download =>
              ["ssh"; username self ++ "@" ++ gerritserver self; "-p";
               Py.str (gerritport self); "gerrit"; "review"; "--project";
               Scan.project_field download;
               "--message '"
                 ++ fst (fst (defaultMessageCB env builderName build results))
                 ++ "'";
               Scan.changeid_field download])
           (Scan.processed downloads)).
Proof.
  intros Hdefault Hprop.
  destruct (defaultMessageCB_triple env builderName build results)
    as [Htriple Htruthy].
  assert (Hcb : messageCB self builderName build results =
                (fst (fst (defaultMessageCB env builderName build results)),
                 0, 0)) by (rewrite Hdefault; exact Htriple).
  destruct (buildFinished_zero_scores _ _ _ _ _ _ t Hprop Hcb)
    as [Hrun Hspawned].
  split; [now rewrite Hrun|].
  rewrite Hspawned. reflexivity.
Qed.

Lemma default_callback_reviews_witness :
  fst (buildFinished (init "host" "user" (defaultMessageCB (mkEnv "bb")))
         "builder" Scenario.build_B 0 []) = Return tt /\
  map (@length string)
    (spawned (snd (buildFinished
                     (init "host" "user" (defaultMessageCB (mkEnv "bb")))
                     "builder" Scenario.build_B 0 [])))
    = [10%nat; 10%nat].
Proof.
  destruct (default_callback_reviews (mkEnv "bb")
              (init "host" "user" (defaultMessageCB (mkEnv "bb")))
              "builder" Scenario.build_B 0
              ["projA 12345/3"; "projB bad"] [] eq_refl eq_refl)
    as [Hrun Hspawned].
  split; [exact Hrun|]. rewrite Hspawned. reflexivity.
Defined.

(** ** Two spaces between the fields *)






